(** * RCtrl: the RDMA control-path daemon of rlibv2 (core/rctrl.hh)

    A shallow embedding of the daemon's two RPC handlers
    ([fetch_mr_handler], [rc_handler]), of the start of its thread
    ([start_daemon]) and of the worker loop ([daemon]), followed by the
    properties the specification states about them.  [stop_daemon] joins
    the worker thread; a join has no rendering in a sequential embedding
    and the function is not part of this file.

    The handlers are state-passing functions over the record [RCtrl]; the
    [goto WA] exits of [rc_handler] are an outcome of a small monad.  The
    worker loop, which polls a flag written by other threads and may run
    for ever, is an interaction tree. *)

From stdpp Require Import gmap.
From ITree Require Import ITree ITreeFacts Events.State Events.StateFacts.
From Stdlib Require Import ZArith Lia.
From Stdlib.Strings Require Import Byte.

Local Open Scope Z_scope.

(** ** Machine types *)

(** [u8], [u64] and [usize] values are integers; the only arithmetic in
    rctrl.hh is the 64-bit accumulation of the worker loop, whose
    wrap-around is [wrap64]. *)
Abbreviation u8 := Z (only parsing).
Abbreviation u64 := Z (only parsing).
Abbreviation usize := Z (only parsing).
Abbreviation register_id_t := Z (only parsing).
Abbreviation nic_id_t := Z (only parsing).
Abbreviation pthread_t := Z (only parsing).

Definition wrap64 (z : Z) : u64 := z mod 2 ^ 64.

(** [ByteBuffer] is a byte string. *)
Abbreviation ByteBuffer := (list byte) (only parsing).

(** Modelled from the spec: [IOCode], the result code of the queue-pair
    operations, is declared outside rctrl.hh.  The spec gives the operations
    a success/failure result and rctrl.hh only ever compares a code with
    [IOCode::Ok], so every code other than [Ok] is [IOCode_Err] here. *)
Inductive IOCode := IOCode_Ok | IOCode_Err.

#[global] Instance IOCode_eq_dec : EqDecision IOCode.
Proof. solve_decision. Defined.

(** Modelled from the spec: [proto::CallbackStatus], the status of a reply,
    is declared outside rctrl.hh; the spec has Status in
    {Ok, NotFound, WrongArg}. *)
Inductive CallbackStatus := Ok | NotFound | WrongArg.

#[global] Instance CallbackStatus_eq_dec : EqDecision CallbackStatus.
Proof. solve_decision. Defined.

(** [Result<T>]: a code and a payload [desc]. *)
Record Result (T : Type) := mkResult { code : IOCode; desc : T }.
Arguments mkResult {T} _ _.
Arguments code {T} _.
Arguments desc {T} _.

(** ** The hardware collaborators

    The descriptors and the queue-pair operations come from the RDMA
    library and the NIC; rctrl.hh is written against their interface. *)
Class Hardware := {
  RegAttr : Type;   (* rmem::RegAttr, the MemoryRegionAttr of the spec *)
  QPAttr : Type;    (* qp::QPAttr, the ConnectionAttr of the spec *)
  QPConfig : Type;  (* qp::QPConfig, the connection-config of the spec *)
  RNic : Type;      (* an opened NIC context *)
  RC : Type;        (* a reliable-connection queue pair *)
  my_attr : RC → QPAttr;
  (* creating a queue pair on a NIC; [None] when the hardware refuses *)
  RC_create : RNic → QPConfig → option RC;
  (* [rc->connect(attr)]: the code, and the queue pair as the call leaves it *)
  RC_connect : RC → QPAttr → IOCode * RC;
}.

(** ** Wire structures (namespace proto) *)

Record MRReq := mkMRReq { MRReq_id : register_id_t }.

(** The [attr] of a reply is [None] where the designated initialiser of the
    source leaves the field out. *)
Record MRReply `{Hardware} := mkMRReply {
  MRReply_status : CallbackStatus;
  MRReply_attr : option RegAttr;
}.
Arguments mkMRReply {_} _ _.

Record RCReq `{Hardware} := mkRCReq {
  id : register_id_t;
  whether_create : u8;
  nic_id : nic_id_t;
  config : QPConfig;
  attr : QPAttr;   (* the peer's attribute, handed to connect *)
}.
Arguments mkRCReq {_} _ _ _ _ _.

Record RCReply `{Hardware} := mkRCReply {
  RCReply_status : CallbackStatus;
  RCReply_attr : option QPAttr;
}.
Arguments mkRCReply {_} _ _.

(** [Marshal::dedump<T>] and [Marshal::dump<T>] at the four wire structures.
    The byte format belongs to the serialisation layer. *)
Class Marshal `{Hardware} := {
  dedump_MRReq : ByteBuffer → option MRReq;
  dump_MRReply : MRReply → ByteBuffer;
  dedump_RCReq : ByteBuffer → option RCReq;
  dump_RCReply : RCReply → ByteBuffer;
}.

(** ** The three registries *)

Section Registries.
Context `{Hardware}.

(** Modelled from the spec: [rmem::RegFactory] (rmem/factory.hh), the MR
    Registry, a map from id to memory-region attributes. *)
Definition get_attr_byid (mrs : gmap register_id_t RegAttr)
    (i : register_id_t) : option RegAttr :=
  mrs !! i.

(** Modelled from the spec: [NicFactory], the NIC Registry, a map from id
    to an opened hardware context. *)
Definition find_opened_nic (nics : gmap nic_id_t RNic)
    (i : nic_id_t) : option RNic :=
  nics !! i.

(** Modelled from the spec: [qp::Factory] (qps/factory.hh), the QP
    Registry, a map from id to connection object with create, lookup and
    deconstruct.  A pointer to a registered queue pair is the id it is
    stored under; [None] is the null pointer. *)
Definition query_rc (qps : gmap register_id_t RC)
    (i : register_id_t) : option RC :=
  qps !! i.

(** Modelled from the spec: [qp::Factory::create_and_register_rc]
    (qps/factory.hh).  Creation fails when the registry already holds an
    entry for the id or when the hardware refuses; a failure retains
    nothing. *)
Definition create_and_register_rc (i : register_id_t) (nic : RNic)
    (cfg : QPConfig) (qps : gmap register_id_t RC)
    : Result (option register_id_t) * gmap register_id_t RC :=
  match qps !! i with
  | Some _ => (mkResult IOCode_Err None, qps)
  | None =>
      match RC_create nic cfg with
      | Some rc => (mkResult IOCode_Ok (Some i), <[i := rc]> qps)
      | None => (mkResult IOCode_Err None, qps)
      end
  end.

(** Modelled from the spec: [qp::Factory::deregister_rc] (qps/factory.hh),
    which removes the entry of the id. *)
Definition deregister_rc (i : register_id_t)
    (qps : gmap register_id_t RC) : gmap register_id_t RC :=
  delete i qps.
End Registries.

(** ** The daemon object *)

Record RCtrl `{Hardware} := mkRCtrl {
  running : bool;
  handler_tid : option pthread_t;   (* [None] before the first start *)
  registered_mrs : gmap register_id_t RegAttr;
  registered_qps : gmap register_id_t RC;
  opened_nics : gmap nic_id_t RNic;
}.
Arguments mkRCtrl {_} _ _ _ _ _.

(** ** Control flow of a member function

    A statement either goes on with a value, jumps to the label [WA], or
    has no defined behaviour (a null or dangling pointer is dereferenced,
    or a function that must return a value flows off its end). *)
Inductive outcome (A : Type) :=
| Done (a : A)
| GotoWA
| Undefined.
Arguments Done {A} _.
Arguments GotoWA {A}.
Arguments Undefined {A}.

Section Handlers.
Context `{Marshal}.

Definition set_running (b : bool) (c : RCtrl) : RCtrl :=
  mkRCtrl b (handler_tid c) (registered_mrs c) (registered_qps c)
    (opened_nics c).

Definition set_handler_tid (t : option pthread_t) (c : RCtrl) : RCtrl :=
  mkRCtrl (running c) t (registered_mrs c) (registered_qps c)
    (opened_nics c).

Definition set_registered_qps (q : gmap register_id_t RC) (c : RCtrl)
    : RCtrl :=
  mkRCtrl (running c) (handler_tid c) (registered_mrs c) q (opened_nics c).

(** A member function runs against the daemon object. *)
Definition body (A : Type) : Type := RCtrl → outcome A * RCtrl.

Definition ret {A} (a : A) : body A := λ c, (Done a, c).

Definition bind {A B} (m : body A) (k : A → body B) : body B :=
  λ c, match m c with
       | (Done a, c') => k a c'
       | (GotoWA, c') => (GotoWA, c')
       | (Undefined, c') => (Undefined, c')
       end.

Definition goto_WA {A} : body A := λ c, (GotoWA, c).

(** Reading a member of the daemon object. *)
Definition member {A} (f : RCtrl → A) : body A := λ c, (Done (f c), c).

Notation "'let*' x ':=' m 'in' k" := (bind m (λ x, k))
  (at level 10, x pattern, m at level 100, k at level 200, only parsing).
Notation "m ;;; k" := (bind m (λ _, k))
  (at level 100, k at level 200, right associativity, only parsing).

(** *** Registry calls made through the daemon object *)

Definition registered_mrs_get_attr_byid (i : register_id_t)
    : body (option RegAttr) :=
  member (λ c, get_attr_byid (registered_mrs c) i).

Definition opened_nics_find_opened_nic (i : nic_id_t)
    : body (option RNic) :=
  member (λ c, find_opened_nic (opened_nics c) i).

Definition registered_qps_query_rc (i : register_id_t) : body (option RC) :=
  member (λ c, query_rc (registered_qps c) i).

Definition registered_qps_create_and_register_rc (i : register_id_t)
    (nic : RNic) (cfg : QPConfig) : body (Result (option register_id_t)) :=
  λ c, let '(r, q) := create_and_register_rc i nic cfg (registered_qps c) in
       (Done r, set_registered_qps q c).

Definition registered_qps_deregister_rc (i : register_id_t) : body unit :=
  λ c, (Done tt, set_registered_qps (deregister_rc i (registered_qps c)) c).

(** [p->connect(a)].  The pointee is the registry's own entry, so what
    connect does to the queue pair is seen through the registry. *)
Definition connect (p : option register_id_t) (a : QPAttr) : body IOCode :=
  λ c, match p with
       | None => (Undefined, c)
       | Some i =>
           match registered_qps c !! i with
           | None => (Undefined, c)
           | Some rc =>
               let '(r, rc') := RC_connect rc a in
               (Done r, set_registered_qps (<[i := rc']> (registered_qps c)) c)
           end
       end.

(** *** fetch_mr_handler (rctrl.hh:83-99) *)
Definition fetch_mr_handler (b : ByteBuffer) : body ByteBuffer :=
  let o_id := dedump_MRReq b in
  match o_id with
  | Some req_id =>
      let* o_attr := registered_mrs_get_attr_byid (MRReq_id req_id) in
      match o_attr with
      | Some a => ret (dump_MRReply (mkMRReply Ok (Some a)))
      | None => ret (dump_MRReply (mkMRReply NotFound None))
      end
  | None => ret (dump_MRReply (mkMRReply WrongArg None))
  end.

(** *** fetch_qp_attr (rctrl.hh:105-113) *)
Definition fetch_qp_attr (req : RCReq) : body ByteBuffer :=
  let* rc := registered_qps_query_rc (id req) in
  match rc with
  | Some q => ret (dump_RCReply (mkRCReply Ok (Some (my_attr q))))
  | None => ret (dump_RCReply (mkRCReply NotFound None))
  end.

(** What [fetch_qp_attr] replies for id [i], read off the registry. *)
Definition qp_reply (c : RCtrl) (i : register_id_t) : RCReply :=
  match registered_qps c !! i with
  | Some q => mkRCReply Ok (Some (my_attr q))
  | None => mkRCReply NotFound None
  end.

(** The sanity check of rctrl.hh:131-132, as written:
    [whether_create == 1 || whether_create != 0]. *)
Definition sanity_check (req : RCReq) : bool :=
  (whether_create req =? 1) || negb (whether_create req =? 0).

(** *** rc_handler (rctrl.hh:122-165)

    [rc_handler_body] is the block between the first test and the label;
    [rc_handler] adds the code at the label [WA]. *)
Definition rc_handler_body (b : ByteBuffer) : body ByteBuffer :=
  let rc_req_o := dedump_RCReq b in
  match rc_req_o with
  | None => goto_WA
  | Some rc_req =>
      (* 1. sanity check the request *)
      (if negb (sanity_check rc_req) then goto_WA else ret tt) ;;;
      (* 1. check whether we need to create the QP *)
      (if whether_create rc_req =? 1 then
         (* 1.0 find the Nic to create this QP *)
         let* nic := opened_nics_find_opened_nic (nic_id rc_req) in
         match nic with
         | None => goto_WA
         | Some n =>
             (* 1.1 try to create and register this QP *)
             let* rc_status :=
               registered_qps_create_and_register_rc
                 (id rc_req) n (config rc_req) in
             if bool_decide (code rc_status ≠ IOCode_Ok) then goto_WA
             else
               (* 1.2 finally we connect the QP *)
               let* r := connect (desc rc_status) (attr rc_req) in
               if bool_decide (r ≠ IOCode_Ok) then
                 registered_qps_deregister_rc (id rc_req) ;;;
                 goto_WA
               else ret tt
         end
       else ret tt) ;;;
      (* 2. fetch the QP result *)
      fetch_qp_attr rc_req
  end.

Definition rc_handler (b : ByteBuffer) : body ByteBuffer :=
  λ c, match rc_handler_body b c with
       | (GotoWA, c') => (Done (dump_RCReply (mkRCReply WrongArg None)), c')
       | r => r
       end.

(** *** Start of the worker thread (rctrl.hh:49-56)

    [spawned] is what [pthread_create] stores in [handler_tid]: the new
    thread, or nothing when it fails (its return code is not looked at).
    The function is declared [bool] and ends without a [return]. *)
Definition start_daemon (spawned : option pthread_t) : body bool :=
  λ c, let c1 := set_running true c in
       let c2 := match spawned with
                 | Some t => set_handler_tid (Some t) c1
                 | None => c1
                 end in
       (Undefined, c2).
End Handlers.

(** ** The worker loop (rctrl.hh:70-78)

    The worker reads the flag [running], which other threads write, and
    pumps the RPC endpoint, which belongs to the transport.  Both are
    events; so is the line the worker logs when it leaves the loop. *)
Variant daemonE : Type → Type :=
| LoadRunning : daemonE bool            (* the test [ctrl.running] *)
| RunOneEventLoop : daemonE usize       (* [ctrl.rpc.run_one_event_loop()] *)
| LogInfo (total_reqs : u64) : daemonE unit.

(** One evaluation of the loop test and, when it holds, of the loop body:
    [inl] goes round again with the new [total_reqs], [inr] leaves. *)
Definition daemon_iteration (total_reqs : u64) : itree daemonE (u64 + u64) :=
  ITree.bind (ITree.trigger LoadRunning) (λ r : bool,
    if r then
      ITree.bind (ITree.trigger RunOneEventLoop) (λ n : usize,
        Ret (inl (wrap64 (total_reqs + n))))
    else Ret (inr total_reqs)).

(** [daemon] is declared [void *] and, like [start_daemon], ends without a
    [return]. *)
Definition daemon : itree daemonE (outcome Z) :=
  ITree.bind (ITree.iter daemon_iteration 0) (λ total_reqs : u64,
    ITree.bind (ITree.trigger (LogInfo total_reqs)) (λ _ : unit,
      Ret Undefined)).

(** *** The worker's environment

    What the environment will answer, and what the worker has done so far.
    [flag] holds the values that the coming loads of [running] observe, and
    [inbox] the counts that the coming calls of [run_one_event_loop]
    report. *)
Inductive action :=
| Load (observed : bool)
| Pump (processed : usize)
| Log (total_reqs : u64).

Record world := mkWorld {
  flag : list bool;
  inbox : list usize;
  history : list action;
}.

(** Once the script of [flag] is used up the flag reads false, and an empty
    [inbox] reports no request. *)
Definition handle_daemonE : daemonE ~> Monads.stateT world (itree void1) :=
  λ _ e w,
    match e in daemonE T return itree void1 (world * T) with
    | LoadRunning =>
        match flag w with
        | r :: fl => Ret (mkWorld fl (inbox w) (history w ++ [Load r]), r)
        | [] => Ret (mkWorld [] (inbox w) (history w ++ [Load false]), false)
        end
    | RunOneEventLoop =>
        match inbox w with
        | n :: ib => Ret (mkWorld (flag w) ib (history w ++ [Pump n]), n)
        | [] => Ret (mkWorld (flag w) [] (history w ++ [Pump 0]), 0)
        end
    | LogInfo t => Ret (mkWorld (flag w) (inbox w) (history w ++ [Log t]), tt)
    end.

Definition run_daemon (w : world) : itree void1 (world * outcome Z) :=
  interp_state handle_daemonE daemon w.

(** [total_reqs] after the worker has added the counts of [ns] to [t]. *)
Definition accumulate (t : u64) (ns : list usize) : u64 :=
  fold_left (λ acc n, wrap64 (acc + n)) ns t.

(** The sum of the counts, without wrap-around. *)
Definition sum_counts (ns : list usize) : Z := foldr Z.add 0 ns.

(** The worker's actions over a run of iterations that report [ns]. *)
Definition iterations (ns : list usize) : list action :=
  flat_map (λ n, [Load true; Pump n]) ns.

(** ** A platform to run the handlers on

    Descriptors, configurations and NIC contexts are numbers.  A queue pair
    records its own attribute and the peer it is connected to.  The
    hardware refuses configuration 0 and refuses to connect to attribute 0.
    On the wire every field is one byte. *)
Module Bench.
Record rc := mkRc { rc_attr : Z; rc_peer : option Z }.

#[global] Instance rc_eq_dec : EqDecision rc.
Proof. solve_decision. Defined.

#[export] Instance hardware : Hardware := {|
  RegAttr := Z;
  QPAttr := Z;
  QPConfig := Z;
  RNic := Z;
  RC := rc;
  my_attr := rc_attr;
  RC_create := λ nic cfg,
    if cfg =? 0 then None else Some (mkRc (nic * 16 + cfg) None);
  RC_connect := λ q a,
    if a =? 0 then (IOCode_Err, q) else (IOCode_Ok, mkRc (rc_attr q) (Some a));
|}.

Definition Z_of_byte (b : byte) : Z := Z.of_N (Byte.to_N b).

Definition byte_of_Z (z : Z) : byte :=
  default x00 (Byte.of_N (Z.to_N (z mod 256))).

Definition byte_of_status (s : CallbackStatus) : byte :=
  match s with Ok => x00 | NotFound => x02 | WrongArg => x03 end.

#[export] Instance marshal : Marshal := {|
  dedump_MRReq := λ b,
    match b with
    | i :: _ => Some (mkMRReq (Z_of_byte i))
    | _ => None
    end;
  dump_MRReply := λ r,
    [byte_of_status (MRReply_status r);
     byte_of_Z (default 0 (MRReply_attr r))];
  dedump_RCReq := λ b,
    match b with
    | i :: w :: n :: c :: a :: _ =>
        Some (mkRCReq (Z_of_byte i) (Z_of_byte w) (Z_of_byte n)
                (Z_of_byte c) (Z_of_byte a))
    | _ => None
    end;
  dump_RCReply := λ r,
    [byte_of_status (RCReply_status r);
     byte_of_Z (default 0 (RCReply_attr r))];
|}.

(** A daemon that is not yet started: memory region 5 is published with
    attribute 77, NIC 0 is opened with context 9, no queue pair exists. *)
Definition ctrl0 : RCtrl :=
  mkRCtrl false None {[ 5 := 77 ]} ∅ {[ 0 := 9 ]}.

(** Requests for queue pair 7, as bytes [id; whether_create; nic_id;
    config; attr]. *)
Definition create_7 : ByteBuffer := [x07; x01; x00; x03; x04].
Definition create_7_unreachable_peer : ByteBuffer := [x07; x01; x00; x03; x00].
Definition create_7_no_nic : ByteBuffer := [x07; x01; x01; x03; x04].
Definition create_7_bad_config : ByteBuffer := [x07; x01; x00; x00; x04].
Definition fetch_7 : ByteBuffer := [x07; x00; x00; x00; x00].
Definition flag2_7 : ByteBuffer := [x07; x02; x00; x00; x00].
Definition truncated : ByteBuffer := [].

(** The wire structures of this platform, from their fields. *)
Definition request (i w n c a : Z) : RCReq := mkRCReq i w n c a.
Definition rc_reply (s : CallbackStatus) (a : option Z) : RCReply :=
  mkRCReply s a.
Definition mr_reply (s : CallbackStatus) (a : option Z) : MRReply :=
  mkMRReply s a.

(** The daemon after [create_7] has been served. *)
Definition ctrl1 : RCtrl := (rc_handler create_7 ctrl0).2.
End Bench.

(** * Properties *)

(** ** The registries *)

Section Registry_Facts.
Context `{Hardware}.

Lemma create_and_register_rc_taken i nic cfg (qps : gmap Z RC) :
  is_Some (qps !! i) →
  create_and_register_rc i nic cfg qps = (mkResult IOCode_Err None, qps).
Proof. intros [q Hq]. unfold create_and_register_rc. by rewrite Hq. Qed.

(** A creation that does not report [Ok] leaves the registry as it was. *)
Lemma create_and_register_rc_failure i nic cfg (qps : gmap Z RC) :
  code (create_and_register_rc i nic cfg qps).1 ≠ IOCode_Ok →
  create_and_register_rc i nic cfg qps = (mkResult IOCode_Err None, qps).
Proof.
  unfold create_and_register_rc.
  destruct (qps !! i); [done |].
  destruct (RC_create nic cfg); [| done].
  cbn. intros Hne. by destruct Hne.
Qed.

(** A creation that reports [Ok] found the id free, got a queue pair from
    the hardware, stored it under the id and points to it. *)
Lemma create_and_register_rc_success i nic cfg (qps : gmap Z RC) :
  code (create_and_register_rc i nic cfg qps).1 = IOCode_Ok →
  qps !! i = None ∧
  ∃ rc, RC_create nic cfg = Some rc ∧
        create_and_register_rc i nic cfg qps
        = (mkResult IOCode_Ok (Some i), <[i := rc]> qps).
Proof.
  unfold create_and_register_rc.
  destruct (qps !! i); [done |].
  destruct (RC_create nic cfg) as [rc |]; [| done].
  intros _. split; [done |]. by exists rc.
Qed.

(** Registering under a free id, touching the entry and deregistering it
    gives the registry back. *)
Lemma deregister_rc_rollback i (rc rc' : RC) (qps : gmap Z RC) :
  qps !! i = None →
  deregister_rc i (<[i := rc']> (<[i := rc]> qps)) = qps.
Proof.
  intros Hfree. unfold deregister_rc.
  rewrite insert_insert_eq, delete_insert_eq. by apply delete_id.
Qed.
End Registry_Facts.

(** ** The handlers *)

Create HintDb rctrl.
#[global] Hint Unfold rc_handler rc_handler_body fetch_qp_attr fetch_mr_handler
  bind ret goto_WA member registered_mrs_get_attr_byid
  opened_nics_find_opened_nic registered_qps_query_rc
  registered_qps_create_and_register_rc registered_qps_deregister_rc
  : rctrl.

(** Unfold a handler down to the registry calls. *)
Ltac run_handler := autounfold with rctrl; cbn beta iota.

Section Handler_Facts.
Context `{Marshal}.

Lemma set_registered_qps_same (c : RCtrl) :
  set_registered_qps (registered_qps c) c = c.
Proof. by destruct c. Qed.

Lemma sanity_check_spec (req : RCReq) :
  sanity_check req = false ↔ whether_create req = 0.
Proof.
  unfold sanity_check.
  destruct (Z.eqb_spec (whether_create req) 1) as [-> | _]; cbn; [done |].
  destruct (Z.eqb_spec (whether_create req) 0); cbn; split; done.
Qed.

Lemma fetch_qp_attr_reply (req : RCReq) (c : RCtrl) :
  fetch_qp_attr req c = (Done (dump_RCReply (qp_reply c (id req))), c).
Proof.
  run_handler. unfold query_rc, qp_reply.
  by destruct (registered_qps c !! id req).
Qed.

(** A request whose flag is 0 stops at the sanity check. *)
Lemma rc_handler_flag_0 (b : ByteBuffer) (req : RCReq) (c : RCtrl) :
  dedump_RCReq b = Some req →
  whether_create req = 0 →
  rc_handler b c = (Done (dump_RCReply (mkRCReply WrongArg None)), c).
Proof.
  intros Hreq Hflag. run_handler. rewrite Hreq.
  apply sanity_check_spec in Hflag. by rewrite Hflag.
Qed.

(** A request whose flag is neither 0 nor 1 goes straight to the fetch. *)
Lemma rc_handler_other_flag (b : ByteBuffer) (req : RCReq) (c : RCtrl) :
  dedump_RCReq b = Some req →
  whether_create req ≠ 0 →
  whether_create req ≠ 1 →
  rc_handler b c = fetch_qp_attr req c.
Proof.
  intros Hreq Hn0 Hn1. rewrite fetch_qp_attr_reply.
  run_handler. rewrite Hreq.
  destruct (sanity_check req) eqn:Hs; [| by apply sanity_check_spec in Hs].
  cbn. destruct (Z.eqb_spec (whether_create req) 1); [done |].
  unfold query_rc, qp_reply. by destruct (registered_qps c !! id req).
Qed.

(** A successful creation: the queue pair is registered and connected, and
    the reply carries its attribute. *)
Lemma rc_handler_create_ok (b : ByteBuffer) (req : RCReq) (c : RCtrl)
    (nic : RNic) (rc : RC) :
  dedump_RCReq b = Some req →
  whether_create req = 1 →
  opened_nics c !! nic_id req = Some nic →
  registered_qps c !! id req = None →
  RC_create nic (config req) = Some rc →
  (RC_connect rc (attr req)).1 = IOCode_Ok →
  rc_handler b c
  = (Done (dump_RCReply
             (mkRCReply Ok (Some (my_attr (RC_connect rc (attr req)).2)))),
     set_registered_qps
       (<[id req := (RC_connect rc (attr req)).2]> (registered_qps c)) c).
Proof.
  intros Hreq Hflag Hnic Hfree Hcreate Hconn. run_handler.
  rewrite Hreq. unfold sanity_check. rewrite Hflag. cbn.
  unfold find_opened_nic. rewrite Hnic.
  unfold create_and_register_rc. rewrite Hfree, Hcreate. cbn.
  case_bool_decide; [done |]. unfold connect. cbn.
  rewrite lookup_insert_eq.
  destruct (RC_connect rc (attr req)) as [k rc'] eqn:Hk.
  cbn in Hconn. subst k. cbn.
  case_bool_decide; [done |]. unfold query_rc. cbn.
  rewrite lookup_insert_eq. by rewrite insert_insert_eq.
Qed.
(** A creation whose connect fails: the entry is registered, touched by
    connect and deregistered again. *)
Lemma rc_handler_connect_err (b : ByteBuffer) (req : RCReq) (c : RCtrl)
    (nic : RNic) (rc : RC) :
  dedump_RCReq b = Some req →
  whether_create req = 1 →
  opened_nics c !! nic_id req = Some nic →
  registered_qps c !! id req = None →
  RC_create nic (config req) = Some rc →
  (RC_connect rc (attr req)).1 ≠ IOCode_Ok →
  rc_handler b c
  = (Done (dump_RCReply (mkRCReply WrongArg None)),
     set_registered_qps
       (deregister_rc (id req)
          (<[id req := (RC_connect rc (attr req)).2]>
             (<[id req := rc]> (registered_qps c)))) c).
Proof.
  intros Hreq Hflag Hnic Hfree Hcreate Hconn. run_handler.
  rewrite Hreq. unfold sanity_check. rewrite Hflag. cbn.
  unfold find_opened_nic. rewrite Hnic.
  unfold create_and_register_rc. rewrite Hfree, Hcreate. cbn.
  case_bool_decide; [done |]. unfold connect. cbn.
  rewrite lookup_insert_eq.
  destruct (RC_connect rc (attr req)) as [k rc'] eqn:Hk.
  cbn in Hconn. cbn. case_bool_decide; done.
Qed.

(** A creation that the registry or the hardware refuses. *)
Lemma rc_handler_create_err (b : ByteBuffer) (req : RCReq) (c : RCtrl)
    (nic : RNic) :
  dedump_RCReq b = Some req →
  whether_create req = 1 →
  opened_nics c !! nic_id req = Some nic →
  code (create_and_register_rc (id req) nic (config req)
          (registered_qps c)).1 ≠ IOCode_Ok →
  rc_handler b c = (Done (dump_RCReply (mkRCReply WrongArg None)), c).
Proof.
  intros Hreq Hflag Hnic Herr. run_handler.
  rewrite Hreq. unfold sanity_check. rewrite Hflag. cbn.
  unfold find_opened_nic. rewrite Hnic.
  rewrite (create_and_register_rc_failure _ _ _ _ Herr). cbn.
  case_bool_decide; [| done]. by rewrite set_registered_qps_same.
Qed.

(** Every request gets a reply: the handler neither leaves through [WA]
    without one nor dereferences a pointer that is null or dangling. *)
Lemma rc_handler_replies (b : ByteBuffer) (c : RCtrl) :
  ∃ (r : RCReply) (c' : RCtrl), rc_handler b c = (Done (dump_RCReply r), c').
Proof.
  run_handler. destruct (dedump_RCReq b) as [req |]; [| eauto].
  destruct (sanity_check req); cbn; [| eauto].
  destruct (whether_create req =? 1); cbn.
  - unfold find_opened_nic.
    destruct (opened_nics c !! nic_id req) as [nic |]; [| eauto].
    unfold create_and_register_rc.
    destruct (registered_qps c !! id req) as [q |] eqn:Hq; cbn.
    { case_bool_decide; [eauto | done]. }
    destruct (RC_create nic (config req)) as [rc |]; cbn.
    + case_bool_decide; [done |]. unfold connect. cbn.
      rewrite lookup_insert_eq.
      destruct (RC_connect rc (attr req)) as [k rc']. cbn.
      case_bool_decide; cbn; [eauto |].
      unfold query_rc. cbn. rewrite lookup_insert_eq. eauto.
    + case_bool_decide; [eauto | done].
  - unfold query_rc. destruct (registered_qps c !! id req); eauto.
Qed.

(** [fetch_mr_handler] only reads. *)
Lemma fetch_mr_handler_pure (b : ByteBuffer) (c : RCtrl) :
  ∃ r : MRReply, fetch_mr_handler b c = (Done (dump_MRReply r), c).
Proof.
  run_handler. destruct (dedump_MRReq b) as [req |]; [| eauto].
  destruct (get_attr_byid (registered_mrs c) (MRReq_id req)); eauto.
Qed.

(** X7.  After a successful creation, a request for the same id with a flag
    other than 0 and 1 reads the attribute the creation replied with. *)
Lemma rc_handler_create_then_other_flag (b b' : ByteBuffer)
    (req req' : RCReq) (c : RCtrl) (nic : RNic) (rc : RC) :
  dedump_RCReq b = Some req →
  whether_create req = 1 →
  opened_nics c !! nic_id req = Some nic →
  registered_qps c !! id req = None →
  RC_create nic (config req) = Some rc →
  (RC_connect rc (attr req)).1 = IOCode_Ok →
  dedump_RCReq b' = Some req' →
  id req' = id req →
  whether_create req' ≠ 0 →
  whether_create req' ≠ 1 →
  (rc_handler b' (rc_handler b c).2).1 = (rc_handler b c).1.
Proof.
  intros Hreq Hflag Hnic Hfree Hcreate Hconn Hreq' Hid Hn0 Hn1.
  rewrite (rc_handler_create_ok b req c nic rc) by done. cbn.
  rewrite (rc_handler_other_flag b' req') by done.
  rewrite fetch_qp_attr_reply. unfold qp_reply. cbn.
  by rewrite Hid, lookup_insert_eq.
Qed.

(** The same second request with the flag 0 is turned away. *)
Lemma rc_handler_create_then_flag_0 (b b' : ByteBuffer)
    (req' : RCReq) (c : RCtrl) :
  dedump_RCReq b' = Some req' →
  whether_create req' = 0 →
  (rc_handler b' (rc_handler b c).2).1
  = Done (dump_RCReply (mkRCReply WrongArg None)).
Proof.
  intros Hreq' Hflag.
  by rewrite (rc_handler_flag_0 b' req' _ Hreq' Hflag).
Qed.

(** *** Claims about [fetch_mr_handler] *)

(** C4.  [fetch_mr_handler] replies WrongArg when the bytes do not
    deserialize into a request, Ok with the stored attribute when the
    requested id is in the MR registry, and NotFound when it is not. *)
Theorem fetch_mr_handler_cases (b : ByteBuffer) (c : RCtrl) :
  (dedump_MRReq b = None →
   (fetch_mr_handler b c).1 = Done (dump_MRReply (mkMRReply WrongArg None)))
  ∧ (∀ req a,
       dedump_MRReq b = Some req →
       registered_mrs c !! MRReq_id req = Some a →
       (fetch_mr_handler b c).1
       = Done (dump_MRReply (mkMRReply Ok (Some a))))
  ∧ (∀ req,
       dedump_MRReq b = Some req →
       registered_mrs c !! MRReq_id req = None →
       (fetch_mr_handler b c).1
       = Done (dump_MRReply (mkMRReply NotFound None))).
Proof.
  repeat split.
  - intros Hnone. run_handler. by rewrite Hnone.
  - intros req a Hreq Hin. run_handler. rewrite Hreq.
    unfold get_attr_byid. by rewrite Hin.
  - intros req Hreq Hout. run_handler. rewrite Hreq.
    unfold get_attr_byid. by rewrite Hout.
Qed.

(** C7.  On bytes that do not deserialize, each handler replies WrongArg
    and leaves the daemon, its three registries included, as it was. *)
Theorem malformed_request_wrong_arg (b : ByteBuffer) (c : RCtrl) :
  (dedump_MRReq b = None →
   fetch_mr_handler b c
   = (Done (dump_MRReply (mkMRReply WrongArg None)), c))
  ∧ (dedump_RCReq b = None →
     rc_handler b c = (Done (dump_RCReply (mkRCReply WrongArg None)), c)).
Proof.
  split; intros Hnone; run_handler; by rewrite Hnone.
Qed.

(** *** Claims about [rc_handler] *)

(** C5.  A create request that names a NIC which is not in the NIC
    registry is answered WrongArg, and the daemon (so the QP registry) is
    unchanged. *)
Theorem rc_handler_unknown_nic (b : ByteBuffer) (req : RCReq) (c : RCtrl) :
  dedump_RCReq b = Some req →
  whether_create req = 1 →
  find_opened_nic (opened_nics c) (nic_id req) = None →
  rc_handler b c = (Done (dump_RCReply (mkRCReply WrongArg None)), c).
Proof.
  intros Hreq Hflag Hnic. run_handler.
  rewrite Hreq. unfold sanity_check. rewrite Hflag. cbn.
  by rewrite Hnic.
Qed.

(** C6.  A create request whose NIC is found but whose queue pair cannot
    be created and registered (the id is already taken, or the call
    reports anything but Ok) is answered WrongArg, and the daemon is left
    as it was: nothing of the attempt stays in the QP registry. *)
Theorem rc_handler_creation_failure (b : ByteBuffer) (req : RCReq)
    (c : RCtrl) (nic : RNic) :
  dedump_RCReq b = Some req →
  whether_create req = 1 →
  find_opened_nic (opened_nics c) (nic_id req) = Some nic →
  is_Some (query_rc (registered_qps c) (id req))
  ∨ code (create_and_register_rc (id req) nic (config req)
            (registered_qps c)).1 ≠ IOCode_Ok →
  rc_handler b c = (Done (dump_RCReply (mkRCReply WrongArg None)), c).
Proof.
  intros Hreq Hflag Hnic Hfail.
  apply (rc_handler_create_err b req c nic); try done.
  destruct Hfail as [Htaken | Herr]; [| done].
  by rewrite (create_and_register_rc_taken _ _ _ _ Htaken).
Qed.

(** C1.  When a create request gets its NIC, its queue pair is created
    and registered, and the connect of that queue pair does not report
    Ok, the handler replies WrongArg and deregisters the queue pair:
    afterwards the QP registry has no entry for the id, and the daemon is
    as it was before the request. *)
Theorem rc_handler_connect_failure_rolls_back (b : ByteBuffer)
    (req : RCReq) (c : RCtrl) (nic : RNic)
    (rc_status : Result (option register_id_t)) (qps1 : gmap Z RC)
    (rc : RC) :
  dedump_RCReq b = Some req →
  whether_create req = 1 →
  find_opened_nic (opened_nics c) (nic_id req) = Some nic →
  create_and_register_rc (id req) nic (config req) (registered_qps c)
  = (rc_status, qps1) →
  code rc_status = IOCode_Ok →
  query_rc qps1 (id req) = Some rc →
  (RC_connect rc (attr req)).1 ≠ IOCode_Ok →
  (rc_handler b c).1 = Done (dump_RCReply (mkRCReply WrongArg None))
  ∧ registered_qps (rc_handler b c).2
    = deregister_rc (id req)
        (<[id req := (RC_connect rc (attr req)).2]> qps1)
  ∧ query_rc (registered_qps (rc_handler b c).2) (id req) = None
  ∧ (rc_handler b c).2 = c.
Proof.
  intros Hreq Hflag Hnic Hcreate Hok Hrc Hconn.
  destruct (create_and_register_rc_success (id req) nic (config req)
              (registered_qps c)) as (Hfree & rc0 & Hhw & Hres).
  { by rewrite Hcreate. }
  rewrite Hres in Hcreate. injection Hcreate as <- <-.
  unfold query_rc in Hrc. rewrite lookup_insert_eq in Hrc.
  injection Hrc as ->.
  rewrite (rc_handler_connect_err b req c nic rc); try done. cbn.
  rewrite deregister_rc_rollback by done.
  repeat split; try done.
  by rewrite set_registered_qps_same.
Qed.

(** C10.  A request whose flag is neither 0 nor 1 passes the sanity check
    and does not enter the creation step: the handler is the fetch of the
    id from the QP registry (Ok with the attribute of the entry, NotFound
    without one) and the daemon is unchanged. *)
Theorem rc_handler_other_flag_fetches (b : ByteBuffer) (req : RCReq)
    (c : RCtrl) :
  dedump_RCReq b = Some req →
  whether_create req ≠ 0 →
  whether_create req ≠ 1 →
  sanity_check req = true
  ∧ rc_handler b c = fetch_qp_attr req c
  ∧ rc_handler b c
    = (Done (dump_RCReply
               match query_rc (registered_qps c) (id req) with
               | Some q => mkRCReply Ok (Some (my_attr q))
               | None => mkRCReply NotFound None
               end), c).
Proof.
  intros Hreq Hn0 Hn1. split; [| split].
  - destruct (sanity_check req) eqn:Hs; [done |].
    by apply sanity_check_spec in Hs.
  - by apply rc_handler_other_flag.
  - rewrite (rc_handler_other_flag b req c) by done.
    apply fetch_qp_attr_reply.
Qed.

(** *** Claims about the lifecycle *)

(** C9.  [start_daemon] never returns a value: whatever [pthread_create]
    does, the call sets [running] and then flows off the end of a function
    declared [bool]. *)
Theorem start_daemon_no_return_value (spawned : option pthread_t)
    (c : RCtrl) :
  (start_daemon spawned c).1 = Undefined
  ∧ (∀ v : bool, (start_daemon spawned c).1 ≠ Done v)
  ∧ running (start_daemon spawned c).2 = true.
Proof.
  unfold start_daemon. cbn. repeat split; [done |].
  by destruct spawned.
Qed.
End Handler_Facts.

(** ** The worker loop *)

Section Daemon_Facts.

Lemma wrap64_add_l (a b : Z) : wrap64 (wrap64 a + b) = wrap64 (a + b).
Proof. unfold wrap64. apply Zplus_mod_idemp_l. Qed.

Lemma accumulate_wrapped (t : Z) (ns : list Z) :
  accumulate (wrap64 t) ns = wrap64 (t + sum_counts ns).
Proof.
  revert t. induction ns as [| n ns IH]; intros t.
  - cbn. by rewrite Z.add_0_r.
  - change (accumulate (wrap64 t) (n :: ns))
      with (accumulate (wrap64 (wrap64 t + n)) ns).
    change (sum_counts (n :: ns)) with (n + sum_counts ns).
    rewrite wrap64_add_l, IH. f_equal. lia.
Qed.

(** What the worker reports is the sum of the counts, in 64 bits. *)
Lemma accumulate_sum (ns : list Z) :
  accumulate 0 ns = wrap64 (sum_counts ns).
Proof. apply (accumulate_wrapped 0). Qed.

Lemma accumulate_exact (ns : list Z) :
  0 ≤ sum_counts ns < 2 ^ 64 → accumulate 0 ns = sum_counts ns.
Proof.
  intros Hrange. rewrite accumulate_sum. unfold wrap64.
  by apply Z.mod_small.
Qed.

(** One iteration that sees the flag set: one load, one pump. *)
Lemma daemon_iteration_running (t n : Z) fl ib h :
  interp_state handle_daemonE (daemon_iteration t)
    (mkWorld (true :: fl) (n :: ib) h)
  ≈ Ret (mkWorld fl ib (h ++ [Load true; Pump n]), inl (wrap64 (t + n))).
Proof.
  unfold daemon_iteration.
  rewrite interp_state_bind, interp_state_trigger. cbn.
  rewrite bind_ret_l. cbn.
  rewrite interp_state_bind, interp_state_trigger. cbn.
  rewrite bind_ret_l. cbn.
  rewrite interp_state_ret, <- app_assoc. reflexivity.
Qed.

(** The iteration that sees the flag cleared: one load, no pump. *)
Lemma daemon_iteration_stopped (t : Z) fl ib h :
  interp_state handle_daemonE (daemon_iteration t)
    (mkWorld (false :: fl) ib h)
  ≈ Ret (mkWorld fl ib (h ++ [Load false]), inr t).
Proof.
  unfold daemon_iteration.
  rewrite interp_state_bind, interp_state_trigger. cbn.
  rewrite bind_ret_l. cbn.
  rewrite interp_state_ret. reflexivity.
Qed.

(** The loop, from any [total_reqs]: as many iterations as the flag is
    seen set, then the exit. *)
Lemma daemon_loop (ns : list Z) : ∀ (t : Z) fl ib h,
  interp_state handle_daemonE (ITree.iter daemon_iteration t)
    (mkWorld (((λ _, true) <$> ns) ++ false :: fl) (ns ++ ib) h)
  ≈ Ret (mkWorld fl ib (h ++ iterations ns ++ [Load false]),
         accumulate t ns).
Proof.
  induction ns as [| n ns IH]; intros t fl ib h; cbn.
  - rewrite unfold_iter, interp_state_bind, daemon_iteration_stopped.
    rewrite bind_ret_l. cbn. rewrite interp_state_ret. reflexivity.
  - rewrite unfold_iter, interp_state_bind, daemon_iteration_running.
    rewrite bind_ret_l. cbn.
    rewrite interp_state_tau, tau_eutt, IH.
    fold (accumulate (wrap64 (t + n)) ns).
    rewrite <- app_assoc. reflexivity.
Qed.

(** The run of the worker.  When it sees the flag set at its first
    [length ns] tests and cleared at the next one, it pumps the endpoint
    exactly once after each test that saw the flag set and does nothing
    else in between, it leaves the loop at the test that sees the flag
    cleared and logs the accumulated count (the 64-bit sum of the counts
    the pumps reported).  After the log line the function has no [return]
    to reach. *)
Lemma daemon_polls_then_reports (ns : list Z) fl ib :
  run_daemon (mkWorld (((λ _, true) <$> ns) ++ false :: fl) (ns ++ ib) [])
  ≈ Ret (mkWorld fl ib
           (iterations ns ++ [Load false; Log (accumulate 0 ns)]),
         Undefined)
  ∧ accumulate 0 ns = wrap64 (sum_counts ns).
Proof.
  split; [| apply accumulate_sum].
  unfold run_daemon, daemon.
  rewrite interp_state_bind, daemon_loop, bind_ret_l. cbn.
  rewrite interp_state_bind, interp_state_trigger. cbn.
  rewrite bind_ret_l. cbn.
  rewrite interp_state_ret, <- app_assoc. reflexivity.
Qed.
End Daemon_Facts.

(** ** The handlers and the worker on the bench platform *)

Section Bench_Runs.
Import Bench.

Lemma fetch_mr_handler_cases_witness :
  (dedump_MRReq truncated = None
   ∧ (fetch_mr_handler truncated ctrl0).1
     = Done (dump_MRReply (mr_reply WrongArg None)))
  ∧ (dedump_MRReq [x05] = Some (mkMRReq 5)
     ∧ registered_mrs ctrl0 !! 5 = Some 77
     ∧ (fetch_mr_handler [x05] ctrl0).1
       = Done (dump_MRReply (mr_reply Ok (Some 77))))
  ∧ (dedump_MRReq [x06] = Some (mkMRReq 6)
     ∧ registered_mrs ctrl0 !! 6 = None
     ∧ (fetch_mr_handler [x06] ctrl0).1
       = Done (dump_MRReply (mr_reply NotFound None))).
Proof.
  split; [| split].
  - split; [reflexivity |].
    apply (proj1 (fetch_mr_handler_cases truncated ctrl0)). reflexivity.
  - split; [reflexivity |]. split; [reflexivity |].
    apply (proj1 (proj2 (fetch_mr_handler_cases [x05] ctrl0)) (mkMRReq 5) 77);
      reflexivity.
  - split; [reflexivity |]. split; [reflexivity |].
    apply (proj2 (proj2 (fetch_mr_handler_cases [x06] ctrl0)) (mkMRReq 6));
      reflexivity.
Defined.

Lemma malformed_request_wrong_arg_witness :
  dedump_MRReq truncated = None
  ∧ dedump_RCReq truncated = None
  ∧ fetch_mr_handler truncated ctrl1
    = (Done (dump_MRReply (mr_reply WrongArg None)), ctrl1)
  ∧ rc_handler truncated ctrl1
    = (Done (dump_RCReply (rc_reply WrongArg None)), ctrl1).
Proof.
  split; [reflexivity |]. split; [reflexivity |].
  split.
  - apply (proj1 (malformed_request_wrong_arg truncated ctrl1)). reflexivity.
  - apply (proj2 (malformed_request_wrong_arg truncated ctrl1)). reflexivity.
Defined.

Lemma rc_handler_unknown_nic_witness :
  dedump_RCReq create_7_no_nic = Some (request 7 1 1 3 4)
  ∧ find_opened_nic (opened_nics ctrl0) 1 = None
  ∧ rc_handler create_7_no_nic ctrl0
    = (Done (dump_RCReply (rc_reply WrongArg None)), ctrl0).
Proof.
  split; [reflexivity |]. split; [reflexivity |].
  apply (rc_handler_unknown_nic create_7_no_nic (request 7 1 1 3 4) ctrl0);
    reflexivity.
Defined.

(** Queue pair 7 exists in [ctrl1]: a second creation under the id is
    refused and [ctrl1] keeps the first one. *)
Lemma rc_handler_creation_failure_witness :
  dedump_RCReq create_7 = Some (request 7 1 0 3 4)
  ∧ find_opened_nic (opened_nics ctrl1) 0 = Some 9
  ∧ query_rc (registered_qps ctrl1) 7 = Some (mkRc 147 (Some 4))
  ∧ rc_handler create_7 ctrl1
    = (Done (dump_RCReply (rc_reply WrongArg None)), ctrl1).
Proof.
  split; [reflexivity |]. split; [reflexivity |]. split; [reflexivity |].
  apply (rc_handler_creation_failure create_7 (request 7 1 0 3 4) ctrl1 9);
    try reflexivity.
  left. exists (mkRc 147 (Some 4)). reflexivity.
Defined.

Lemma rc_handler_connect_failure_rolls_back_witness :
  dedump_RCReq create_7_unreachable_peer = Some (request 7 1 0 3 0)
  ∧ create_and_register_rc 7 9 3 (registered_qps ctrl0)
    = (mkResult IOCode_Ok (Some 7), {[ 7 := mkRc 147 None ]})
  ∧ (RC_connect (mkRc 147 None) 0).1 = IOCode_Err
  ∧ (rc_handler create_7_unreachable_peer ctrl0).1
    = Done (dump_RCReply (rc_reply WrongArg None))
  ∧ query_rc (registered_qps (rc_handler create_7_unreachable_peer ctrl0).2)
      7 = None
  ∧ (rc_handler create_7_unreachable_peer ctrl0).2 = ctrl0.
Proof.
  split; [reflexivity |]. split; [reflexivity |]. split; [reflexivity |].
  destruct (rc_handler_connect_failure_rolls_back
              create_7_unreachable_peer (request 7 1 0 3 0) ctrl0 9
              (mkResult IOCode_Ok (Some 7)) {[ 7 := mkRc 147 None ]}
              (mkRc 147 None))
    as (Hreply & _ & Hgone & Hsame); try reflexivity.
  - discriminate.
  - split; [exact Hreply |]. split; [exact Hgone | exact Hsame].
Defined.

Lemma rc_handler_other_flag_fetches_witness :
  dedump_RCReq flag2_7 = Some (request 7 2 0 0 0)
  ∧ rc_handler flag2_7 ctrl1
    = (Done (dump_RCReply (rc_reply Ok (Some 147))), ctrl1)
  ∧ rc_handler flag2_7 ctrl0
    = (Done (dump_RCReply (rc_reply NotFound None)), ctrl0).
Proof.
  split; [reflexivity |]. split.
  - apply (rc_handler_other_flag_fetches flag2_7 (request 7 2 0 0 0) ctrl1);
      [reflexivity | discriminate | discriminate].
  - apply (rc_handler_other_flag_fetches flag2_7 (request 7 2 0 0 0) ctrl0);
      [reflexivity | discriminate | discriminate].
Defined.

(** C2.  The request [flag2_7] carries the flag 2, which is neither of the
    two recognized values, and is not answered WrongArg: the sanity check
    lets it through and the handler replies with the fetch. *)
Theorem rc_handler_flag_2_not_rejected :
  dedump_RCReq flag2_7 = Some (request 7 2 0 0 0)
  ∧ sanity_check (request 7 2 0 0 0) = true
  ∧ (rc_handler flag2_7 ctrl0).1
    = Done (dump_RCReply (rc_reply NotFound None))
  ∧ (rc_handler flag2_7 ctrl1).1
    = Done (dump_RCReply (rc_reply Ok (Some 147)))
  ∧ (rc_handler flag2_7 ctrl0).1
    ≠ Done (dump_RCReply (rc_reply WrongArg None))
  ∧ (rc_handler flag2_7 ctrl1).1
    ≠ Done (dump_RCReply (rc_reply WrongArg None)).
Proof. repeat split; (reflexivity || discriminate). Qed.

(** C3.  [create_7] succeeds on [ctrl0] with attribute 147 and leaves
    [ctrl1]; the fetch-only request [fetch_7] for the same id, served
    next, is answered WrongArg and not Ok with 147: its flag 0 fails the
    sanity check. *)
Theorem rc_handler_fetch_only_after_create :
  rc_handler create_7 ctrl0
  = (Done (dump_RCReply (rc_reply Ok (Some 147))), ctrl1)
  ∧ dedump_RCReq fetch_7 = Some (request 7 0 0 0 0)
  ∧ sanity_check (request 7 0 0 0 0) = false
  ∧ rc_handler fetch_7 ctrl1
    = (Done (dump_RCReply (rc_reply WrongArg None)), ctrl1)
  ∧ (rc_handler fetch_7 ctrl1).1
    ≠ Done (dump_RCReply (rc_reply Ok (Some 147))).
Proof. repeat split; (reflexivity || discriminate). Qed.
End Bench_Runs.

(** * Further properties of the handlers *)

Section Handler_Effects.
Context `{Marshal}.

(** The three ways through the block of [rc_handler]: it leaves through
    [WA] with the daemon as it found it, it replies without having written
    anything, or it has created, registered and connected a queue pair under
    an id that was free. *)
Lemma rc_handler_body_cases (b : ByteBuffer) (c : RCtrl) :
  rc_handler_body b c = (GotoWA, c)
  ∨ (∃ req : RCReq,
       dedump_RCReq b = Some req
       ∧ whether_create req ≠ 1
       ∧ rc_handler_body b c
         = (Done (dump_RCReply (qp_reply c (id req))), c))
  ∨ (∃ (req : RCReq) (nic : RNic) (rc : RC),
       dedump_RCReq b = Some req
       ∧ whether_create req = 1
       ∧ opened_nics c !! nic_id req = Some nic
       ∧ registered_qps c !! id req = None
       ∧ RC_create nic (config req) = Some rc
       ∧ (RC_connect rc (attr req)).1 = IOCode_Ok
       ∧ rc_handler_body b c
         = (Done (dump_RCReply
                    (mkRCReply Ok
                       (Some (my_attr (RC_connect rc (attr req)).2)))),
            set_registered_qps
              (<[id req := (RC_connect rc (attr req)).2]> (registered_qps c))
              c)).
Proof.
  unfold rc_handler_body.
  destruct (dedump_RCReq b) as [req |] eqn:Hreq; [| by left].
  run_handler.
  destruct (sanity_check req); cbn; [| by left].
  destruct (Z.eqb_spec (whether_create req) 1) as [Hflag | Hflag]; cbn.
  - unfold find_opened_nic.
    destruct (opened_nics c !! nic_id req) as [nic |] eqn:Hnic; [| by left].
    unfold create_and_register_rc.
    destruct (registered_qps c !! id req) as [q |] eqn:Hq; cbn.
    { case_bool_decide; [| done]. left. by rewrite set_registered_qps_same. }
    destruct (RC_create nic (config req)) as [rc |] eqn:Hhw; cbn.
    + case_bool_decide; [done |]. unfold connect. cbn.
      rewrite lookup_insert_eq.
      destruct (RC_connect rc (attr req)) as [k rc'] eqn:Hk. cbn.
      case_bool_decide as Hcode; cbn.
      * left. f_equal. unfold set_registered_qps. cbn.
        rewrite deregister_rc_rollback by done. by destruct c.
      * right. right. exists req, nic, rc. rewrite Hk. cbn.
        repeat split; try done.
        unfold query_rc. rewrite lookup_insert_eq.
        unfold set_registered_qps. cbn. by rewrite insert_insert_eq.
    + case_bool_decide; [| done]. left. by rewrite set_registered_qps_same.
  - right. left. exists req. repeat split; try done.
    unfold query_rc, qp_reply. by destruct (registered_qps c !! id req).
Qed.

(** The same for the handler: it replies WrongArg or the fetch and leaves
    the daemon alone, or it has set up a queue pair under a free id. *)
Lemma rc_handler_cases (b : ByteBuffer) (c : RCtrl) :
  rc_handler b c = (Done (dump_RCReply (mkRCReply WrongArg None)), c)
  ∨ (∃ req : RCReq,
       dedump_RCReq b = Some req
       ∧ whether_create req ≠ 1
       ∧ rc_handler b c = (Done (dump_RCReply (qp_reply c (id req))), c))
  ∨ (∃ (req : RCReq) (rc : RC),
       dedump_RCReq b = Some req
       ∧ whether_create req = 1
       ∧ registered_qps c !! id req = None
       ∧ rc_handler b c
         = (Done (dump_RCReply (mkRCReply Ok (Some (my_attr rc)))),
            set_registered_qps (<[id req := rc]> (registered_qps c)) c)).
Proof.
  unfold rc_handler.
  destruct (rc_handler_body_cases b c)
    as [-> | [(req & Hreq & Hflag & ->)
             | (req & nic & rc & Hreq & Hflag & _ & Hfree & _ & _ & ->)]].
  - by left.
  - right. left. by exists req.
  - right. right. by exists req, (RC_connect rc (attr req)).2.
Qed.

(** X1.  [fetch_mr_handler] is a pure read: on every input it returns a
    reply and the daemon it was given. *)
Theorem fetch_mr_handler_read_only (b : ByteBuffer) (c : RCtrl) :
  (fetch_mr_handler b c).2 = c
  ∧ ∃ r : MRReply,
      (fetch_mr_handler b c).1 = Done (dump_MRReply r)
      ∧ (MRReply_status r = Ok ↔ is_Some (MRReply_attr r)).
Proof.
  run_handler. destruct (dedump_MRReq b) as [req |]; cbn.
  - destruct (get_attr_byid (registered_mrs c) (MRReq_id req)) as [a |].
    + split; [done |]. eexists. split; [done |]. cbn. by split.
    + split; [done |]. eexists. split; [done |]. cbn.
      split; [done |]. by intros [? ?].
  - split; [done |]. eexists. split; [done |]. cbn.
    split; [done |]. by intros [? ?].
Qed.

(** X2.  [rc_handler] answers every input with a reply: it never ends
    through a null or dangling [desc], and the reply carries an attribute
    exactly when its status is Ok. *)
Theorem rc_handler_reply_well_formed (b : ByteBuffer) (c : RCtrl) :
  ∃ r : RCReply,
    (rc_handler b c).1 = Done (dump_RCReply r)
    ∧ (RCReply_status r = Ok ↔ is_Some (RCReply_attr r)).
Proof.
  destruct (rc_handler_cases b c)
    as [-> | [(req & _ & _ & ->) | (req & rc & _ & _ & _ & ->)]].
  - eexists. split; [done |]. cbn. split; [done |]. by intros [? ?].
  - eexists. split; [done |]. unfold qp_reply.
    destruct (registered_qps c !! id req); cbn.
    + by split.
    + split; [done |]. by intros [? ?].
  - eexists. split; [done |]. cbn. by split.
Qed.

(** X3.  [rc_handler] writes nothing but the QP registry: the flag, the
    thread handle, the MR registry and the NIC registry are as before,
    whatever the request. *)
Theorem rc_handler_frame (b : ByteBuffer) (c : RCtrl) :
  running (rc_handler b c).2 = running c
  ∧ handler_tid (rc_handler b c).2 = handler_tid c
  ∧ registered_mrs (rc_handler b c).2 = registered_mrs c
  ∧ opened_nics (rc_handler b c).2 = opened_nics c.
Proof.
  destruct (rc_handler_cases b c)
    as [-> | [(req & _ & _ & ->) | (req & rc & _ & _ & _ & ->)]]; done.
Qed.

(** X4.  [rc_handler] never removes and never replaces a queue pair that
    was registered when the request came in. *)
Theorem rc_handler_preserves_entries (b : ByteBuffer) (c : RCtrl)
    (j : register_id_t) (q : RC) :
  registered_qps c !! j = Some q →
  registered_qps (rc_handler b c).2 !! j = Some q.
Proof.
  intros Hj.
  destruct (rc_handler_cases b c)
    as [-> | [(req & _ & _ & ->) | (req & rc & _ & _ & Hfree & ->)]];
    try done.
  cbn. rewrite lookup_insert_ne; [done |]. intros <-. congruence.
Qed.

(** X5.  Every exit through the label [WA] is without effect: when the
    block of [rc_handler] jumps there, the handler replies WrongArg and the
    daemon is what it was when the request came in. *)
Theorem rc_handler_wa_no_effect (b : ByteBuffer) (c : RCtrl) :
  (rc_handler_body b c).1 = GotoWA →
  rc_handler b c = (Done (dump_RCReply (mkRCReply WrongArg None)), c).
Proof.
  intros Hwa. unfold rc_handler.
  destruct (rc_handler_body_cases b c)
    as [Hb | [(req & _ & _ & Hb)
             | (req & nic & rc & _ & _ & _ & _ & _ & _ & Hb)]];
    rewrite Hb in Hwa |- *; done.
Qed.

(** X6.  The creation path when every step succeeds: the reply is Ok with
    the attribute of the queue pair as connect left it, that queue pair is
    registered under the id, and every other id reads as before. *)
Theorem rc_handler_creates_and_connects (b : ByteBuffer) (req : RCReq)
    (c : RCtrl) (nic : RNic) (rc : RC) :
  dedump_RCReq b = Some req →
  whether_create req = 1 →
  find_opened_nic (opened_nics c) (nic_id req) = Some nic →
  query_rc (registered_qps c) (id req) = None →
  RC_create nic (config req) = Some rc →
  (RC_connect rc (attr req)).1 = IOCode_Ok →
  (rc_handler b c).1
  = Done (dump_RCReply
            (mkRCReply Ok (Some (my_attr (RC_connect rc (attr req)).2))))
  ∧ query_rc (registered_qps (rc_handler b c).2) (id req)
    = Some (RC_connect rc (attr req)).2
  ∧ ∀ j, j ≠ id req →
         query_rc (registered_qps (rc_handler b c).2) j
         = query_rc (registered_qps c) j.
Proof.
  intros Hreq Hflag Hnic Hfree Hhw Hconn.
  rewrite (rc_handler_create_ok b req c nic rc) by done.
  unfold query_rc. cbn. split; [done |]. split.
  - apply lookup_insert_eq.
  - intros j Hj. by apply lookup_insert_ne.
Qed.

(** X8.  A request whose flag is 0 is answered WrongArg and changes
    nothing, whether or not its id is registered. *)
Theorem rc_handler_flag_0_wrong_arg (b : ByteBuffer) (req : RCReq)
    (c : RCtrl) :
  dedump_RCReq b = Some req →
  whether_create req = 0 →
  sanity_check req = false
  ∧ rc_handler b c = (Done (dump_RCReply (mkRCReply WrongArg None)), c).
Proof.
  intros Hreq Hflag. split.
  - by apply sanity_check_spec.
  - by apply (rc_handler_flag_0 b req).
Qed.

(** X9.  A reply of [rc_handler] to a request that deserializes is either
    WrongArg with the daemon unchanged, or what [fetch_qp_attr] gives on
    the daemon the handler leaves behind. *)
Theorem rc_handler_reply_is_fetch (b : ByteBuffer) (req : RCReq)
    (c : RCtrl) :
  dedump_RCReq b = Some req →
  rc_handler b c = (Done (dump_RCReply (mkRCReply WrongArg None)), c)
  ∨ rc_handler b c = fetch_qp_attr req (rc_handler b c).2.
Proof.
  intros Hreq.
  destruct (rc_handler_cases b c)
    as [Hc | [(req' & Hreq' & _ & Hc) | (req' & rc & Hreq' & _ & _ & Hc)]].
  - by left.
  - right. rewrite Hc, fetch_qp_attr_reply. cbn. congruence.
  - right. rewrite Hc, fetch_qp_attr_reply. cbn.
    assert (req' = req) as -> by congruence.
    unfold qp_reply. cbn. by rewrite lookup_insert_eq.
Qed.

(** X10.  Connection requests do not show in memory-region fetches:
    [fetch_mr_handler] answers the same before and after any call of
    [rc_handler]. *)
Theorem fetch_mr_handler_after_rc_handler (b b' : ByteBuffer) (c : RCtrl) :
  (fetch_mr_handler b' (rc_handler b c).2).1 = (fetch_mr_handler b' c).1.
Proof.
  destruct (rc_handler_cases b c)
    as [-> | [(req & _ & _ & ->) | (req & rc & _ & _ & _ & ->)]]; try done.
  run_handler. destruct (dedump_MRReq b') as [r |]; [| done]. cbn.
  by destruct (get_attr_byid (registered_mrs c) (MRReq_id r)).
Qed.

(** X11.  Requests for different ids do not interfere: what a request with
    a flag other than 0 and 1 reads for its id is the same before and after
    any request for another id. *)
Theorem rc_handler_other_id_unaffected (b b' : ByteBuffer)
    (req req' : RCReq) (c : RCtrl) :
  dedump_RCReq b = Some req →
  dedump_RCReq b' = Some req' →
  id req' ≠ id req →
  whether_create req' ≠ 0 →
  whether_create req' ≠ 1 →
  (rc_handler b' (rc_handler b c).2).1 = (rc_handler b' c).1.
Proof.
  intros Hreq Hreq' Hid Hn0 Hn1.
  rewrite !(rc_handler_other_flag b' req') by done.
  rewrite !fetch_qp_attr_reply. cbn.
  destruct (rc_handler_cases b c)
    as [-> | [(r & _ & _ & ->) | (r & rc & Hr & _ & _ & ->)]]; try done.
  assert (r = req) as -> by congruence.
  unfold qp_reply. cbn. by rewrite lookup_insert_ne.
Qed.

(** X12.  While no NIC is opened no request changes the daemon: without a
    NIC context [rc_handler] cannot register a queue pair. *)
Theorem rc_handler_no_nic_no_effect (b : ByteBuffer) (c : RCtrl) :
  opened_nics c = ∅ →
  (rc_handler b c).2 = c.
Proof.
  intros Hnone. unfold rc_handler.
  destruct (rc_handler_body_cases b c)
    as [-> | [(req & _ & _ & ->)
             | (req & nic & rc & _ & _ & Hnic & _)]]; try done.
  by rewrite Hnone, lookup_empty in Hnic.
Qed.

(** X17.  A queue pair appears in the QP registry only through a request
    for its id whose flag is 1: no other request, and no request for
    another id, registers it. *)
Theorem rc_handler_registers_only_on_create (b : ByteBuffer) (c : RCtrl)
    (j : register_id_t) :
  registered_qps c !! j = None →
  is_Some (registered_qps (rc_handler b c).2 !! j) →
  ∃ req : RCReq,
    dedump_RCReq b = Some req ∧ id req = j ∧ whether_create req = 1.
Proof.
  intros Hfree Hnew.
  destruct (rc_handler_cases b c)
    as [Hc | [(req & _ & _ & Hc) | (req & rc & Hreq & Hflag & _ & Hc)]];
    rewrite Hc in Hnew; cbn in Hnew.
  - rewrite Hfree in Hnew. by destruct Hnew.
  - rewrite Hfree in Hnew. by destruct Hnew.
  - exists req. repeat split; try done.
    destruct (decide (id req = j)) as [| Hne]; [done |].
    rewrite lookup_insert_ne, Hfree in Hnew by done. by destruct Hnew.
Qed.
End Handler_Effects.

(** * Further properties of the worker *)

Section Daemon_More.

(** X15.  The worker stays in its loop for as long as it sees the flag set:
    over tests that all see it set, the loop does one pump per test and
    goes on from the accumulated count, with the rest of the environment
    still ahead of it. *)
Theorem daemon_keeps_polling (ns : list Z) : ∀ (t : Z) fl ib h,
  interp_state handle_daemonE (ITree.iter daemon_iteration t)
    (mkWorld (((λ _, true) <$> ns) ++ fl) (ns ++ ib) h)
  ≈ interp_state handle_daemonE
      (ITree.iter daemon_iteration (accumulate t ns))
      (mkWorld fl ib (h ++ iterations ns)).
Proof.
  induction ns as [| n ns IH]; intros t fl ib h; cbn.
  - rewrite app_nil_r. reflexivity.
  - rewrite unfold_iter, interp_state_bind, daemon_iteration_running.
    rewrite bind_ret_l. cbn.
    rewrite interp_state_tau, tau_eutt, IH.
    fold (accumulate (wrap64 (t + n)) ns).
    rewrite <- app_assoc. reflexivity.
Qed.

(** X16.  When the counts of a run add up to less than 2^64, the total the
    worker logs is their sum. *)
Theorem daemon_reports_exact_sum (ns : list Z) fl ib :
  0 ≤ sum_counts ns < 2 ^ 64 →
  run_daemon (mkWorld (((λ _, true) <$> ns) ++ false :: fl) (ns ++ ib) [])
  ≈ Ret (mkWorld fl ib (iterations ns ++ [Load false; Log (sum_counts ns)]),
         Undefined).
Proof.
  intros Hrange. unfold run_daemon, daemon.
  rewrite interp_state_bind, daemon_loop, bind_ret_l. cbn.
  rewrite interp_state_bind, interp_state_trigger. cbn.
  rewrite bind_ret_l. cbn.
  rewrite interp_state_ret, <- app_assoc.
  rewrite (accumulate_exact ns Hrange). reflexivity.
Qed.

(** C8.  The worker does what the loop is for, one pump after each test
    that sees the flag set and the log of the accumulated count at the
    exit, but it does not end as a function that returns: [daemon] is
    declared [void *] and control flows off its end, so no run of it yields
    a returned value. *)
Theorem daemon_flows_off_its_end (ns : list Z) fl ib :
  run_daemon (mkWorld (((λ _, true) <$> ns) ++ false :: fl) (ns ++ ib) [])
  ≈ Ret (mkWorld fl ib
           (iterations ns ++ [Load false; Log (accumulate 0 ns)]),
         Undefined)
  ∧ ∀ (w : world) (v : Z),
      ¬ (run_daemon
           (mkWorld (((λ _, true) <$> ns) ++ false :: fl) (ns ++ ib) [])
         ≈ Ret (w, Done v)).
Proof.
  pose proof (proj1 (daemon_polls_then_reports ns fl ib)) as Hrun.
  split; [exact Hrun |].
  intros w v Hdone. rewrite Hrun in Hdone.
  apply eutt_inv_Ret in Hdone. discriminate Hdone.
Qed.
End Daemon_More.

(** ** The further properties on the bench platform *)

Section Bench_More.
Import Bench.

Lemma rc_handler_preserves_entries_witness :
  registered_qps ctrl1 !! 7 = Some (mkRc 147 (Some 4))
  ∧ registered_qps (rc_handler create_7 ctrl1).2 !! 7
    = Some (mkRc 147 (Some 4)).
Proof.
  split; [reflexivity |].
  apply (rc_handler_preserves_entries create_7 ctrl1 7 (mkRc 147 (Some 4))).
  reflexivity.
Defined.

Lemma rc_handler_wa_no_effect_witness :
  (rc_handler_body create_7_bad_config ctrl0).1 = GotoWA
  ∧ rc_handler create_7_bad_config ctrl0
    = (Done (dump_RCReply (rc_reply WrongArg None)), ctrl0).
Proof.
  split; [reflexivity |].
  apply (rc_handler_wa_no_effect create_7_bad_config ctrl0). reflexivity.
Defined.

Lemma rc_handler_creates_and_connects_witness :
  dedump_RCReq create_7 = Some (request 7 1 0 3 4)
  ∧ (rc_handler create_7 ctrl0).1
    = Done (dump_RCReply (rc_reply Ok (Some 147)))
  ∧ query_rc (registered_qps (rc_handler create_7 ctrl0).2) 7
    = Some (mkRc 147 (Some 4)).
Proof.
  split; [reflexivity |].
  destruct (rc_handler_creates_and_connects create_7 (request 7 1 0 3 4)
              ctrl0 9 (mkRc 147 None))
    as (Hreply & Hentry & _); try reflexivity.
  split; [exact Hreply | exact Hentry].
Defined.

Lemma rc_handler_create_then_other_flag_witness :
  dedump_RCReq create_7 = Some (request 7 1 0 3 4)
  ∧ dedump_RCReq flag2_7 = Some (request 7 2 0 0 0)
  ∧ (rc_handler flag2_7 (rc_handler create_7 ctrl0).2).1
    = (rc_handler create_7 ctrl0).1.
Proof.
  split; [reflexivity |]. split; [reflexivity |].
  apply (rc_handler_create_then_other_flag create_7 flag2_7
           (request 7 1 0 3 4) (request 7 2 0 0 0) ctrl0 9 (mkRc 147 None));
    (reflexivity || discriminate).
Defined.

Lemma rc_handler_flag_0_wrong_arg_witness :
  dedump_RCReq fetch_7 = Some (request 7 0 0 0 0)
  ∧ rc_handler fetch_7 ctrl1
    = (Done (dump_RCReply (rc_reply WrongArg None)), ctrl1).
Proof.
  split; [reflexivity |].
  apply (rc_handler_flag_0_wrong_arg fetch_7 (request 7 0 0 0 0) ctrl1);
    reflexivity.
Defined.

Lemma rc_handler_reply_is_fetch_witness :
  dedump_RCReq create_7 = Some (request 7 1 0 3 4)
  ∧ (rc_handler create_7 ctrl0
     = (Done (dump_RCReply (rc_reply WrongArg None)), ctrl0)
     ∨ rc_handler create_7 ctrl0
       = fetch_qp_attr (request 7 1 0 3 4) (rc_handler create_7 ctrl0).2).
Proof.
  split; [reflexivity |].
  apply (rc_handler_reply_is_fetch create_7 (request 7 1 0 3 4) ctrl0).
  reflexivity.
Defined.

(** A creation of queue pair 8 does not show in a read of id 7. *)
Lemma rc_handler_other_id_unaffected_witness :
  dedump_RCReq [x08; x01; x00; x03; x04] = Some (request 8 1 0 3 4)
  ∧ dedump_RCReq flag2_7 = Some (request 7 2 0 0 0)
  ∧ (rc_handler flag2_7 (rc_handler [x08; x01; x00; x03; x04] ctrl1).2).1
    = (rc_handler flag2_7 ctrl1).1.
Proof.
  split; [reflexivity |]. split; [reflexivity |].
  apply (rc_handler_other_id_unaffected [x08; x01; x00; x03; x04] flag2_7
           (request 8 1 0 3 4) (request 7 2 0 0 0) ctrl1);
    (reflexivity || discriminate).
Defined.

Lemma rc_handler_no_nic_no_effect_witness :
  opened_nics (@mkRCtrl hardware false None ∅ ∅ ∅) = ∅
  ∧ (rc_handler create_7 (@mkRCtrl hardware false None ∅ ∅ ∅)).2
    = @mkRCtrl hardware false None ∅ ∅ ∅.
Proof.
  split; [reflexivity |].
  apply (rc_handler_no_nic_no_effect create_7
           (@mkRCtrl hardware false None ∅ ∅ ∅)).
  reflexivity.
Defined.

Lemma rc_handler_registers_only_on_create_witness :
  registered_qps ctrl0 !! 7 = None
  ∧ is_Some (registered_qps (rc_handler create_7 ctrl0).2 !! 7)
  ∧ ∃ req : RCReq,
      dedump_RCReq create_7 = Some req ∧ id req = 7 ∧ whether_create req = 1.
Proof.
  split; [reflexivity |].
  split; [exists (mkRc 147 (Some 4)); reflexivity |].
  apply (rc_handler_registers_only_on_create create_7 ctrl0 7);
    [reflexivity |].
  exists (mkRc 147 (Some 4)). reflexivity.
Defined.

Lemma daemon_reports_exact_sum_witness :
  0 ≤ sum_counts [2; 0; 5] < 2 ^ 64
  ∧ run_daemon (mkWorld [true; true; true; false] [2; 0; 5] [])
    ≈ Ret (mkWorld [] []
             [Load true; Pump 2; Load true; Pump 0; Load true; Pump 5;
              Load false; Log 7],
           Undefined).
Proof.
  split; [cbn; lia |].
  apply (daemon_reports_exact_sum [2; 0; 5] [] []). cbn. lia.
Defined.
End Bench_More.
